(** * PortList icon script ([create_icon.py]): model and verification

    The script draws a hub-and-spoke icon with Pillow, saves it under
    [Resources/] in seven sizes and asks the [sips] command to convert the
    base image to an [.icns] bundle.

    The development has three layers:
    - the picture: the drawing calls of [create_icon], kept as the list of
      shapes put on the canvas, with coordinates in the real numbers
      (the source computes them in double precision);
    - the machine: the part of the outside world the script talks to
      (the Pillow installation, the [sips] command, the file system,
      standard output), threaded through a state-and-exception monad;
    - the script: [create_icon], [create_icns] and the [__main__] block,
      transcribed statement by statement. *)

From Stdlib Require Import ZArith Reals Lra Lia Ascii String.
From stdpp Require Import gmap strings list fin_maps pretty.

Open Scope Z_scope.

(** ** Pictures *)

(** An RGBA colour, four channels 0..255, as the tuples of the source. *)
Definition rgba : Type := Z * Z * Z * Z.

(** [Image.Resampling]: the filters Pillow offers to [resize]. *)
Inductive Resampling : Type :=
  NEAREST | BOX | BILINEAR | HAMMING | BICUBIC | LANCZOS.

(** What [ImageDraw] was asked to paint. *)
Inductive shape : Type :=
| Ellipse (xy : R * R * R * R) (fill : rgba)
| Line (p q : R * R) (fill : rgba) (width : Z).

(** An image is known by how it was made: a fresh canvas, a canvas with one
    more shape painted on it ([ImageDraw.Draw(img)] paints on [img] in
    place, so painting threads the image), or a resampled copy. *)
Inductive image : Type :=
| Image_new (mode : string) (size : Z * Z) (color : rgba)
| Draw (im : image) (s : shape)
| Image_resize (im : image) (size : Z * Z) (resample : Resampling).

(** [img.size]: painting keeps the size, [resize] sets it. *)
Fixpoint image_size (im : image) : Z * Z :=
  match im with
  | Image_new _ sz _ => sz
  | Draw im' _ => image_size im'
  | Image_resize _ sz _ => sz
  end.

(** [img.mode]: kept by painting and by resampling. *)
Fixpoint image_mode (im : image) : string :=
  match im with
  | Image_new m _ _ => m
  | Draw im' _ | Image_resize im' _ _ => image_mode im'
  end.

(** The shapes painted on a canvas, oldest first; a resampled copy has the
    shapes of its source. *)
Fixpoint shapes (im : image) : list shape :=
  match im with
  | Image_new _ _ _ => []
  | Draw im' s => shapes im' ++ [s]
  | Image_resize im' _ _ => shapes im'
  end.

Definition is_ellipse (s : shape) : bool :=
  match s with Ellipse _ _ => true | Line _ _ _ _ => false end.

(** The ellipses of a picture, in painting order. *)
Definition ellipses (im : image) : list shape := filter is_ellipse (shapes im).

(** Centre of the bounding box [x0, y0, x1, y1] of an ellipse. *)
Definition box_center (xy : R * R * R * R) : R * R :=
  let '(x0, y0, x1, y1) := xy in (((x0 + x1) / 2)%R, ((y0 + y1) / 2)%R).

(** Euclidean distance between two points. *)
Definition dist (p q : R * R) : R :=
  sqrt ((fst p - fst q) * (fst p - fst q) + (snd p - snd q) * (snd p - snd q)).

(** [math.radians]. *)
Definition radians (deg : R) : R := (deg * (PI / 180))%R.

(** [range(n)] for a non-negative literal [n]. *)
Definition range (n : Z) : list Z := seqZ 0 n.

(** *** The constants and the drawing of [create_icon] (lines 32-80) *)

Definition size : Z := 512.
Definition primary_color : rgba := (70, 130, 255, 255).
Definition secondary_color : rgba := (255, 255, 255, 255).
Definition accent_color : rgba := (255, 140, 0, 255).
Definition margin : Z := 50.
Definition center : Z := size / 2.
Definition hub_radius : Z := 30.
Definition node_radius : Z := 20.
Definition connection_radius : Z := 150.

(** Lines 57-59 and 71-77: the point at [angle] degrees on the circle of
    nodes. [math.cos] and [math.sin] are taken as the real functions; the
    doubles of the source are their roundings. *)
Definition node_x (angle : Z) : R :=
  (IZR center + IZR connection_radius * cos (radians (IZR angle)))%R.
Definition node_y (angle : Z) : R :=
  (IZR center + IZR connection_radius * sin (radians (IZR angle)))%R.

(** Line 65. *)
Definition node_color (i : Z) : rgba :=
  if i mod 2 =? 0 then accent_color else secondary_color.

(** Body of the first loop (lines 57-67): spoke, then node. *)
Definition draw_node (img : image) (i : Z) : image :=
  let angle := i * 60 in
  let x := node_x angle in
  let y := node_y angle in
  let img := Draw img (Line (IZR center, IZR center) (x, y) secondary_color 6) in
  Draw img (Ellipse ((x - IZR node_radius)%R, (y - IZR node_radius)%R,
                     (x + IZR node_radius)%R, (y + IZR node_radius)%R)
                    (node_color i)).

(** Body of the second loop (lines 71-80): the thin line from node [i] to
    its neighbour. *)
Definition draw_link (img : image) (i : Z) : image :=
  let angle1 := i * 60 in
  let angle2 := ((i + 1) mod 6) * 60 in
  let x1 := node_x angle1 in
  let y1 := node_y angle1 in
  let x2 := node_x angle2 in
  let y2 := node_y angle2 in
  Draw img (Line (x1, y1) (x2, y2) (255, 255, 255, 128) 2).

(** Lines 32-80: the finished 512-pixel picture. *)
Definition render : image :=
  let img := Image_new "RGBA" (size, size) (0, 0, 0, 0) in
  let img := Draw img (Ellipse (IZR margin, IZR margin,
                                IZR (size - margin), IZR (size - margin))
                               primary_color) in
  let img := Draw img (Ellipse (IZR (center - hub_radius), IZR (center - hub_radius),
                                IZR (center + hub_radius), IZR (center + hub_radius))
                               secondary_color) in
  let img := fold_left draw_node (range 6) img in
  fold_left draw_link (range 6) img.

(** ** The machine *)

(** What a file holds: a PNG written by [img.save], the bundle [sips] makes
    of a source file, or anything else that was there before the run. *)
Inductive content : Type :=
| Png (im : image)
| Icns (src : content)
| Blob (bytes : string).

(** The [sips] command of the host: not on the search path, or installed
    and about to leave with the given return code. *)
Inductive tool : Type :=
| NotInstalled
| Exits (returncode : Z).

(** Entering and leaving the script's own functions, as a tracer hooked
    into the interpreter would see them. Both functions return a bool. *)
Inductive event : Type :=
| Call (f : string)
| Return (f : string) (v : bool).

(** The world of one run. [pillow], [sips], [argv] and [environ] are the
    host's; [dirs] and [files] are the file system, keyed by path;
    [stdout] collects what [print] wrote, [invocations] the argument
    vectors handed to [subprocess.run], and [trace] the calls and returns
    of the script's functions in the order they happened (kept so that
    sequencing can be stated). Directories and regular files sit in two
    tables; a path is meant to be in one of them at most, and the calls
    below do not model a regular file found where a directory is wanted,
    or the reverse. *)
Record world : Type := World {
  pillow : bool;
  sips : tool;
  argv : list string;
  environ : gmap string string;
  dirs : gset string;
  files : gmap string content;
  stdout : list string;
  invocations : list (list string);
  trace : list event
}.

Definition set_dirs (d : gset string) (w : world) : world :=
  World (pillow w) (sips w) (argv w) (environ w) d (files w)
        (stdout w) (invocations w) (trace w).
Definition set_files (f : gmap string content) (w : world) : world :=
  World (pillow w) (sips w) (argv w) (environ w) (dirs w) f
        (stdout w) (invocations w) (trace w).
Definition set_stdout (o : list string) (w : world) : world :=
  World (pillow w) (sips w) (argv w) (environ w) (dirs w) (files w)
        o (invocations w) (trace w).
Definition set_invocations (l : list (list string)) (w : world) : world :=
  World (pillow w) (sips w) (argv w) (environ w) (dirs w) (files w)
        (stdout w) l (trace w).
Definition set_trace (l : list event) (w : world) : world :=
  World (pillow w) (sips w) (argv w) (environ w) (dirs w) (files w)
        (stdout w) (invocations w) l.

(** The exceptions the script can meet. *)
Inductive exn : Type :=
| ImportError
| FileNotFoundError
| FileExistsError
| CalledProcessError (returncode : Z)
| SystemExit (code : Z).

(** A statement either completes with a value or raises. *)
Inductive outcome (A : Type) : Type :=
| Val (a : A)
| Exn (e : exn).
Arguments Val {A} a.
Arguments Exn {A} e.

(** Statements: state passing with exceptions. *)
Definition M (A : Type) : Type := world -> outcome A * world.

Definition ret {A} (a : A) : M A := fun w => (Val a, w).

Definition bind {A B} (m : M A) (k : A -> M B) : M B :=
  fun w => match m w with
           | (Val a, w') => k a w'
           | (Exn e, w') => (Exn e, w')
           end.

Definition raise {A} (e : exn) : M A := fun w => (Exn e, w).

(** [try: body except ...: handler e]; a handler re-raises what its
    [except] clauses do not name. *)
Definition try_except {A} (body : M A) (handler : exn -> M A) : M A :=
  fun w => match body w with
           | (Val a, w') => (Val a, w')
           | (Exn e, w') => handler e w'
           end.

Declare Scope py_scope.
Delimit Scope py_scope with py.
Bind Scope py_scope with M.
Notation "x ← m ; k" := (bind m (fun x => k))
  (at level 20, m at level 100, k at level 200, only parsing) : py_scope.
Notation "m ;; k" := (bind m (fun _ => k))
  (at level 100, k at level 200, only parsing, right associativity) : py_scope.
Open Scope py_scope.

(** [for x in l: body x]. *)
Fixpoint for_ {A} (l : list A) (body : A -> M unit) : M unit :=
  match l with
  | [] => ret tt
  | x :: l' => body x ;; for_ l' body
  end.

(** [def name(): body], called: the call is recorded in [trace], and so
    is the return with the value returned; a body that raises leaves no
    return behind. *)
Definition def (name : string) (body : M bool) : M bool :=
  fun w =>
    match body (set_trace (trace w ++ [Call name]) w) with
    | (Val v, w') => (Val v, set_trace (trace w' ++ [Return name v]) w')
    | (Exn e, w') => (Exn e, w')
    end.

(** *** The library calls the script makes *)

(** [print(s)]. *)
Definition print (s : string) : M unit :=
  fun w => (Val tt, set_stdout (stdout w ++ [s]) w).

(** [from PIL import Image, ImageDraw]. *)
Definition import_PIL : M unit :=
  fun w => if pillow w then (Val tt, w) else (Exn ImportError, w).

(** [sys.exit(code)]. *)
Definition sys_exit {A} (code : Z) : M A := raise (SystemExit code).

(** The proper prefixes of a path that end just before a ['/'], shortest
    first: the directories above it. [acc] is the part already read. *)
Fixpoint parents_from (acc rest : string) : list string :=
  match rest with
  | EmptyString => []
  | String c rest' =>
      if Ascii.eqb c "/"%char
      then acc :: parents_from (acc +:+ "/") rest'
      else parents_from (acc +:+ String c EmptyString) rest'
  end.
Definition parents (path : string) : list string := parents_from "" path.

(** [os.path.dirname] of a relative path; [None] stands for the current
    directory. *)
Definition dirname (path : string) : option string := last (parents path).

(** [os.makedirs(path, exist_ok=...)]: makes [path] and the directories
    above it; an existing [path] is an error unless [exist_ok]. *)
Definition os_makedirs (path : string) (exist_ok : bool) : M unit :=
  fun w =>
    if bool_decide (path ∈ dirs w)
    then if exist_ok then (Val tt, w) else (Exn FileExistsError, w)
    else (Val tt, set_dirs (list_to_set (path :: parents path) ∪ dirs w) w).

(** [os.path.exists(path)]. *)
Definition os_path_exists (path : string) : M bool :=
  fun w => (Val (bool_decide (is_Some (files w !! path))
                 || bool_decide (path ∈ dirs w)), w).

(** [im.save(path)]: opening the file fails when the directory it is to
    live in does not exist; an existing file is replaced. The current
    directory is taken to exist. Failures the script has no answer to
    (no permission, a full disk) are outside the model. *)
Definition Image_save (im : image) (path : string) : M unit :=
  fun w =>
    match dirname path with
    | Some d =>
        if bool_decide (d ∈ dirs w)
        then (Val tt, set_files (<[path := Png im]> (files w)) w)
        else (Exn FileNotFoundError, w)
    | None => (Val tt, set_files (<[path := Png im]> (files w)) w)
    end.

(** What a successful [sips -s format icns SRC --out DST] does to the
    files: [DST] becomes the bundle of what [SRC] holds. *)
Definition sips_convert (args : list string) (f : gmap string content)
  : gmap string content :=
  match args with
  | ["-s"; "format"; "icns"; src; "--out"; dst] =>
      match f !! src with
      | Some c => <[dst := Icns c]> f
      | None => f
      end
  | _ => f
  end.

(** [subprocess.run(args, check=..., capture_output=...)]. The call is
    recorded in [invocations]. A command that is not installed raises
    [FileNotFoundError]; [sips] is the only command the model knows. An
    installed [sips] converts when it leaves with code 0 and touches no
    file otherwise; with [check], a non-zero code raises
    [CalledProcessError]. The command's own output is not modelled: the
    script captures it, so none of it reaches [stdout]. *)
Definition subprocess_run (args : list string) (check capture_output : bool)
  : M unit :=
  fun w =>
    let w := set_invocations (invocations w ++ [args]) w in
    match args with
    | "sips" :: rest =>
        match sips w with
        | NotInstalled => (Exn FileNotFoundError, w)
        | Exits rc =>
            if rc =? 0
            then (Val tt, set_files (sips_convert rest (files w)) w)
            else if check then (Exn (CalledProcessError rc), w)
                 else (Val tt, w)
        end
    | _ => (Exn FileNotFoundError, w)
    end.

(** ** The script *)

(** Lines 10-20: the guarded import that sets the global [PIL_AVAILABLE]. *)
Definition module_init : M bool :=
  try_except
    (import_PIL ;; ret true)
    (fun e => match e with
              | ImportError => ret false
              | _ => raise e
              end).

(** Line 87. *)
Definition sizes : list Z := [16; 32; 64; 128; 256; 512].

(** Line 90: the f-string [f'Resources/AppIcon_{s}x{s}.png']. *)
Definition resized_path (s : Z) : string :=
  "Resources/AppIcon_" +:+ pretty s +:+ "x" +:+ pretty s +:+ ".png".

(** Lines 22-93. The global [PIL_AVAILABLE] is passed in. *)
Definition create_icon (PIL_AVAILABLE : bool) : M bool :=
  def "create_icon" (
    if negb PIL_AVAILABLE then
      print "PIL (Pillow) not available. Install with: pip3 install Pillow" ;;
      ret false
    else
      import_PIL ;;
      let img := render in
      Image_save img "Resources/AppIcon.png" ;;
      print "✅ Created Resources/AppIcon.png" ;;
      for_ sizes (fun s =>
        let resized := Image_resize img (s, s) LANCZOS in
        Image_save resized (resized_path s)) ;;
      print "✅ Created multiple icon sizes" ;;
      ret true).

(** Lines 95-118. *)
Definition create_icns : M bool :=
  def "create_icns" (
    found ← os_path_exists "Resources/AppIcon.png" ;
    if negb found then
      print "❌ AppIcon.png not found" ;;
      ret false
    else
      try_except
        (subprocess_run ["sips"; "-s"; "format"; "icns";
                         "Resources/AppIcon.png";
                         "--out"; "Resources/AppIcon.icns"] true true ;;
         print "✅ Created Resources/AppIcon.icns" ;;
         ret true)
        (fun e => match e with
                  | CalledProcessError _ =>
                      print "⚠️  Could not create ICNS file (sips not available)" ;;
                      ret false
                  | FileNotFoundError =>
                      print "⚠️  Could not create ICNS file (sips not found)" ;;
                      ret false
                  | _ => raise e
                  end)).

(** Lines 120-132: the [__main__] block. *)
Definition main (PIL_AVAILABLE : bool) : M unit :=
  print "🎨 Creating PortList app icon..." ;;
  os_makedirs "Resources" true ;;
  ok ← create_icon PIL_AVAILABLE ;
  if ok then
    create_icns ;;
    print "🎉 Icon creation complete!"
  else
    print "❌ Icon creation failed" ;;
    sys_exit 1.

(** The whole file, run as a program. *)
Definition script : M unit :=
  PIL_AVAILABLE ← module_init ;
  main PIL_AVAILABLE.

(** The status the interpreter leaves with: 0 when the script runs to its
    end, the code of a [SystemExit], 1 for any other uncaught exception. *)
Definition exit_status {A} (o : outcome A) : Z :=
  match o with
  | Val _ => 0
  | Exn (SystemExit code) => code
  | Exn _ => 1
  end.

(** A run starts with nothing printed, invoked or traced yet. *)
Definition start (w : world) : world :=
  World (pillow w) (sips w) (argv w) (environ w) (dirs w) (files w) [] [] [].

Definition run (w : world) : outcome unit * world := script (start w).

(** The world a run ends in, and its exit status. *)
Definition final (w : world) : world := snd (run w).
Definition status (w : world) : Z := exit_status (fst (run w)).

(** ** Vocabulary of the statements *)

(** The ellipse painted for node [i]: the ellipses of the picture are the
    background, the hub, then the six nodes. *)
Definition node_shape (i : Z) : option shape :=
  ellipses render !! (2 + Z.to_nat i)%nat.

(** Its bounding box and its fill colour. *)
Definition node_box (i : Z) : option (R * R * R * R) :=
  match node_shape i with
  | Some (Ellipse xy _) => Some xy
  | _ => None
  end.
Definition node_fill (i : Z) : option rgba :=
  match node_shape i with
  | Some (Ellipse _ fill) => Some fill
  | _ => None
  end.

(** The centre of the canvas. *)
Definition canvas_center : R * R := (IZR center, IZR center).

(** What [create_icon] writes for size [s]. *)
Definition resized (s : Z) : content :=
  Png (Image_resize render (s, s) LANCZOS).

(** The files after the seven [save] calls of [create_icon]. *)
Definition saved (f : gmap string content) : gmap string content :=
  foldl (fun f s => <[resized_path s := resized s]> f)
        (<["Resources/AppIcon.png" := Png render]> f) sizes.

(** The seven paths of the PNG outputs and the side, in pixels, each is to
    have. *)
Definition png_paths : list string :=
  ["Resources/AppIcon.png";
   "Resources/AppIcon_16x16.png"; "Resources/AppIcon_32x32.png";
   "Resources/AppIcon_64x64.png"; "Resources/AppIcon_128x128.png";
   "Resources/AppIcon_256x256.png"; "Resources/AppIcon_512x512.png"].

(** The argument vector [create_icns] runs. *)
Definition icns_command : list string :=
  ["sips"; "-s"; "format"; "icns"; "Resources/AppIcon.png";
   "--out"; "Resources/AppIcon.icns"].

(** The three ways the conversion can end, by the state of [sips]: the
    value [create_icns] returns, the line it prints, the files it leaves. *)
Definition icns_result (t : tool) : bool :=
  match t with
  | NotInstalled => false
  | Exits rc => rc =? 0
  end.
Definition icns_message (t : tool) : string :=
  match t with
  | NotInstalled => "⚠️  Could not create ICNS file (sips not found)"
  | Exits rc =>
      if rc =? 0 then "✅ Created Resources/AppIcon.icns"
      else "⚠️  Could not create ICNS file (sips not available)"
  end.
Definition icns_files (t : tool) (f : gmap string content)
  : gmap string content :=
  if icns_result t then sips_convert (tail icns_command) f else f.

(** [sips] fails to run: it is missing, or it leaves with a non-zero code. *)
Definition sips_fails (t : tool) : Prop :=
  t = NotInstalled \/ exists rc, t = Exits rc /\ rc <> 0.

(** The directories after [os.makedirs(path, exist_ok=True)]. *)
Definition made (path : string) (d : gset string) : gset string :=
  if bool_decide (path ∈ d) then d else list_to_set (path :: parents path) ∪ d.


(** ** Sample hosts *)




(** A machine without Pillow. *)
Definition bare_host : world :=
  World false NotInstalled ["create_icon.py"] ∅ ∅ ∅ [] [] [].

(** A machine whose [sips] gives up, with an icon left by an earlier run. *)
Definition stale_host : world :=
  World true (Exits 1) ["create_icon.py"] ∅ {["Resources"]}
        (<["Resources/AppIcon.png" := Blob "old icon"]> ∅) [] [] [].

(** A machine with an empty [Resources] directory. *)
Definition empty_host : world :=
  World true (Exits 0) ["create_icon.py"] ∅ {["Resources"]} ∅ [] [] [].


(** ** Further vocabulary *)

(** The box of the [n]-th ellipse of the picture. *)
Definition ellipse_box (n : nat) : option (R * R * R * R) :=
  match ellipses render !! n with
  | Some (Ellipse xy _) => Some xy
  | _ => None
  end.

(** The centre of the ellipse painted for node [i]. *)
Definition node_center (i : Z) : option (R * R) := box_center <$> node_box i.

(** The lines of a picture, in painting order: in [render], the six spokes
    and then the six links. *)
Definition lines (im : image) : list shape :=
  filter (fun s => negb (is_ellipse s)) (shapes im).
Definition spoke (i : Z) : option shape := lines render !! Z.to_nat i.
Definition link (i : Z) : option shape := lines render !! (6 + Z.to_nat i)%nat.

(** The point [p] lies in the ellipse inscribed in the box [x0, y0, x1, y1],
    the region [draw.ellipse] fills (border included). *)
Definition inside (xy : R * R * R * R) (p : R * R) : Prop :=
  let '(x0, y0, x1, y1) := xy in
  let cx := ((x0 + x1) / 2)%R in
  let cy := ((y0 + y1) / 2)%R in
  let rx := ((x1 - x0) / 2)%R in
  let ry := ((y1 - y0) / 2)%R in
  ((fst p - cx) * (fst p - cx) * (ry * ry)
   + (snd p - cy) * (snd p - cy) * (rx * rx)
   <= rx * rx * (ry * ry))%R.

(** The character [c] does not occur in [s]. *)
Fixpoint lacks (c : ascii) (s : string) : bool :=
  match s with
  | EmptyString => true
  | String d s' => negb (Ascii.eqb c d) && lacks c s'
  end.

(** A character that [str] of an integer never produces: neither a digit
    nor the minus sign. *)
Definition not_numeric (c : ascii) : Prop :=
  c <> "-"%char /\ forall d : N, pretty_N_char d <> c.


(** * Properties *)

(** ** Paths *)

Example parents_nested : parents "a/b/c.png" = ["a"; "a/b"].
Proof. reflexivity. Qed.

Example dirname_icon : dirname "Resources/AppIcon.png" = Some "Resources".
Proof. reflexivity. Qed.

Example dirname_plain : dirname "Resources" = None.
Proof. reflexivity. Qed.

(** ** The picture *)

(** The canvas has an alpha channel, and is 512 pixels square. *)
Lemma render_mode_size :
  image_mode render = "RGBA" /\ image_size render = (512, 512).
Proof. split; reflexivity. Qed.

Lemma ellipses_render :
  ellipses render =
    Ellipse (IZR margin, IZR margin, IZR (size - margin), IZR (size - margin))
            primary_color
    :: Ellipse (IZR (center - hub_radius), IZR (center - hub_radius),
                IZR (center + hub_radius), IZR (center + hub_radius))
               secondary_color
    :: map (fun i =>
              Ellipse ((node_x (i * 60) - IZR node_radius)%R,
                       (node_y (i * 60) - IZR node_radius)%R,
                       (node_x (i * 60) + IZR node_radius)%R,
                       (node_y (i * 60) + IZR node_radius)%R)
                      (node_color i))
           (range 6).
Proof. reflexivity. Qed.

(** The loop index takes the values 0..5 and nothing else. *)
Lemma range_6_cases (i : Z) :
  0 <= i < 6 -> i = 0 \/ i = 1 \/ i = 2 \/ i = 3 \/ i = 4 \/ i = 5.
Proof. lia. Qed.

Ltac each_node H :=
  destruct (range_6_cases _ H) as [->|[->|[->|[->|[->| ->]]]]].

Lemma node_shape_eq (i : Z) :
  0 <= i < 6 ->
  node_shape i =
    Some (Ellipse ((node_x (i * 60) - IZR node_radius)%R,
                   (node_y (i * 60) - IZR node_radius)%R,
                   (node_x (i * 60) + IZR node_radius)%R,
                   (node_y (i * 60) + IZR node_radius)%R)
                  (node_color i)).
Proof.
  intros Hi. unfold node_shape. rewrite ellipses_render.
  each_node Hi; reflexivity.
Qed.

Lemma box_center_square (x y r : R) :
  box_center ((x - r)%R, (y - r)%R, (x + r)%R, (y + r)%R) = (x, y).
Proof. unfold box_center. f_equal; field. Qed.

(** Every point the script places with [node_x], [node_y] is at the
    connection radius from the centre: sin² + cos² = 1. *)
Lemma node_on_circle (angle : Z) :
  dist (node_x angle, node_y angle) canvas_center = IZR connection_radius.
Proof.
  unfold dist, node_x, node_y, canvas_center; cbn [fst snd].
  set (a := radians (IZR angle)). set (r := IZR connection_radius).
  set (c := IZR center).
  replace ((c + r * cos a - c) * (c + r * cos a - c)
           + (c + r * sin a - c) * (c + r * sin a - c))%R
    with ((r * r) * ((sin a)² + (cos a)²))%R by (unfold Rsqr; ring).
  rewrite sin2_cos2, Rmult_1_r. apply sqrt_square.
  unfold r, connection_radius. apply IZR_le. lia.
Qed.

Lemma radians_values :
  radians 0 = 0%R /\ radians 60 = (PI / 3)%R /\
  radians 120 = (2 * (PI / 3))%R /\ radians 180 = PI /\
  radians 240 = (PI / 3 + PI)%R /\ radians 300 = (2 * (PI / 3) + PI)%R.
Proof. unfold radians. repeat split; field. Qed.

(** Where the six nodes are, exactly: the corners of a regular hexagon
    around (256, 256), starting on the right. *)
Lemma node_coordinates :
  map (fun i => (node_x (i * 60), node_y (i * 60))) (range 6) =
    [ (406, 256); (331, 256 + 75 * sqrt 3); (181, 256 + 75 * sqrt 3);
      (106, 256); (181, 256 - 75 * sqrt 3); (331, 256 - 75 * sqrt 3) ]%R.
Proof.
  destruct radians_values as (H0 & H1 & H2 & H3 & H4 & H5).
  unfold node_x, node_y.
  change (range 6) with [0; 1; 2; 3; 4; 5]. cbn [map].
  change (IZR center) with 256%R. change (IZR connection_radius) with 150%R.
  change (0 * 60) with 0; change (1 * 60) with 60; change (2 * 60) with 120;
  change (3 * 60) with 180; change (4 * 60) with 240; change (5 * 60) with 300.
  rewrite H0, H1, H2, H3, H4, H5.
  rewrite !neg_cos, !neg_sin, cos_0, sin_0, cos_PI3, sin_PI3,
    cos_2PI3, sin_2PI3, cos_PI, sin_PI.
  repeat (f_equal; try lra).
Qed.



(** C5. For every index i in 0..5 the fill of node i is chosen by the
    parity of i: the accent colour when i is even, the secondary colour when
    i is odd; the two colours differ, so neighbours in the loop never share
    a fill. *)
Theorem node_fill_by_parity (i : Z) (Hi : 0 <= i < 6) :
  node_fill i = Some (if Z.even i then accent_color else secondary_color) /\
  accent_color <> secondary_color /\
  (i < 5 -> node_fill (i + 1) <> node_fill i).
Proof.
  split; [|split].
  - unfold node_fill. rewrite (node_shape_eq i Hi). each_node Hi; reflexivity.
  - discriminate.
  - intros Hlt. unfold node_fill.
    rewrite (node_shape_eq i Hi), (node_shape_eq (i + 1)) by lia.
    each_node Hi; try lia; discriminate.
Qed.

Lemma node_fill_by_parity_witness :
  0 <= 3 < 6 /\
  node_fill 3 = Some (if Z.even 3 then accent_color else secondary_color) /\
  accent_color <> secondary_color /\
  (3 < 5 -> node_fill (3 + 1) <> node_fill 3).
Proof. split; [lia | apply (node_fill_by_parity 3); lia]. Defined.

(** ** Running statements *)

Lemma set_files_id w : set_files (files w) w = w.
Proof. by destruct w. Qed.

Lemma bind_val {A B} (m : M A) (k : A -> M B) w a w' :
  m w = (Val a, w') -> bind m k w = k a w'.
Proof. unfold bind. by intros ->. Qed.


Lemma def_val name body w v w' :
  body (set_trace (trace w ++ [Call name]) w) = (Val v, w') ->
  def name body w = (Val v, set_trace (trace w' ++ [Return name v]) w').
Proof. unfold def. by intros ->. Qed.


Lemma import_PIL_ok w : pillow w = true -> import_PIL w = (Val tt, w).
Proof. unfold import_PIL. by intros ->. Qed.


(** The guarded import sets [PIL_AVAILABLE] to whether Pillow is there,
    and changes nothing. *)
Lemma module_init_eq w : module_init w = (Val (pillow w), w).
Proof.
  unfold module_init, try_except, bind, import_PIL.
  by destruct (pillow w).
Qed.

Lemma os_makedirs_exist_ok path w :
  os_makedirs path true w = (Val tt, set_dirs (made path (dirs w)) w).
Proof.
  unfold os_makedirs, made. case_bool_decide; [|done]. by destruct w.
Qed.

Lemma made_elem path d : path ∈ made path d.
Proof. unfold made. case_bool_decide; set_solver. Qed.


Lemma Image_save_ok im path d w :
  dirname path = Some d -> d ∈ dirs w ->
  Image_save im path w = (Val tt, set_files (<[path := Png im]> (files w)) w).
Proof.
  intros Hd Hin. unfold Image_save. rewrite Hd.
  by rewrite bool_decide_eq_true_2.
Qed.


Lemma resized_paths :
  map resized_path sizes = tail png_paths.
Proof. reflexivity. Qed.

Lemma dirname_resized :
  Forall (fun s => dirname (resized_path s) = Some "Resources") sizes.
Proof. repeat constructor. Qed.

(** The second loop of saves, by induction on the list of sizes left. *)
Lemma save_sizes_ok (l : list Z) w :
  "Resources" ∈ dirs w ->
  Forall (fun s => dirname (resized_path s) = Some "Resources") l ->
  for_ l (fun s => Image_save (Image_resize render (s, s) LANCZOS) (resized_path s)) w
  = (Val tt, set_files (foldl (fun f s => <[resized_path s := resized s]> f) (files w) l) w).
Proof.
  intros Hdir Hl. revert w Hdir.
  induction Hl as [|s l Hs Hl IH]; intros w Hdir.
  - cbn [for_ foldl]. unfold ret. by rewrite set_files_id.
  - cbn [for_ foldl].
    erewrite bind_val; [|by eapply Image_save_ok].
    rewrite IH by done. by destruct w.
Qed.

(** ** The renderer *)

Lemma create_icon_unavailable w :
  create_icon false w =
    (Val false,
     World (pillow w) (sips w) (argv w) (environ w) (dirs w) (files w)
           (stdout w ++ ["PIL (Pillow) not available. Install with: pip3 install Pillow"])
           (invocations w)
           (trace w ++ [Call "create_icon"; Return "create_icon" false])).
Proof.
  unfold create_icon. erewrite def_val; [|reflexivity].
  cbn. by rewrite <- app_assoc.
Qed.

Lemma create_icon_ok w :
  pillow w = true -> "Resources" ∈ dirs w ->
  create_icon true w =
    (Val true,
     World (pillow w) (sips w) (argv w) (environ w) (dirs w) (saved (files w))
           (stdout w ++ ["✅ Created Resources/AppIcon.png";
                         "✅ Created multiple icon sizes"])
           (invocations w)
           (trace w ++ [Call "create_icon"; Return "create_icon" true])).
Proof.
  intros Hpil Hdir. unfold create_icon.
  erewrite def_val; cycle 1.
  { cbn [negb].
    erewrite bind_val; [|by apply import_PIL_ok].
    erewrite bind_val; [|by eapply Image_save_ok].
    erewrite bind_val; [|reflexivity].
    erewrite bind_val; [|by apply save_sizes_ok; [|apply dirname_resized]].
    reflexivity. }
  cbn. unfold saved. by rewrite <- !app_assoc.
Qed.




Lemma saved_unfold f :
  saved f =
    <["Resources/AppIcon_512x512.png" := resized 512]>
   (<["Resources/AppIcon_256x256.png" := resized 256]>
   (<["Resources/AppIcon_128x128.png" := resized 128]>
   (<["Resources/AppIcon_64x64.png" := resized 64]>
   (<["Resources/AppIcon_32x32.png" := resized 32]>
   (<["Resources/AppIcon_16x16.png" := resized 16]>
   (<["Resources/AppIcon.png" := Png render]> f)))))).
Proof. reflexivity. Qed.

Lemma saved_base f : saved f !! "Resources/AppIcon.png" = Some (Png render).
Proof. rewrite saved_unfold. by simplify_map_eq. Qed.

Lemma saved_resized f s :
  s ∈ sizes -> saved f !! resized_path s = Some (resized s).
Proof.
  intros Hs. rewrite saved_unfold.
  repeat (apply elem_of_cons in Hs as [->|Hs]; [by simplify_map_eq|]).
  by apply elem_of_nil in Hs.
Qed.

Lemma saved_other f p : p ∉ png_paths -> saved f !! p = f !! p.
Proof.
  intros Hp. rewrite saved_unfold.
  unfold png_paths in Hp. rewrite !not_elem_of_cons in Hp.
  destruct Hp as (?&?&?&?&?&?&?&_).
  by rewrite !lookup_insert_ne.
Qed.

(** ** The converter *)

Lemma create_icns_not_found w :
  files w !! "Resources/AppIcon.png" = None ->
  "Resources/AppIcon.png" ∉ dirs w ->
  create_icns w =
    (Val false,
     World (pillow w) (sips w) (argv w) (environ w) (dirs w) (files w)
           (stdout w ++ ["❌ AppIcon.png not found"])
           (invocations w)
           (trace w ++ [Call "create_icns"; Return "create_icns" false])).
Proof.
  intros Hfile Hdir. unfold create_icns.
  erewrite def_val; cycle 1.
  { unfold bind at 1, os_path_exists. cbn [files dirs set_trace].
    rewrite Hfile, bool_decide_eq_false_2 by (by intros []).
    rewrite bool_decide_eq_false_2 by done. reflexivity. }
  cbn. by rewrite <- app_assoc.
Qed.

(** Once the source is found the command is run, once, and the three
    states of [sips] give the three endings. *)
Lemma create_icns_found w :
  is_Some (files w !! "Resources/AppIcon.png") \/ "Resources/AppIcon.png" ∈ dirs w ->
  create_icns w =
    (Val (icns_result (sips w)),
     World (pillow w) (sips w) (argv w) (environ w) (dirs w)
           (icns_files (sips w) (files w))
           (stdout w ++ [icns_message (sips w)])
           (invocations w ++ [icns_command])
           (trace w ++ [Call "create_icns";
                        Return "create_icns" (icns_result (sips w))])).
Proof.
  intros Hex. unfold create_icns.
  assert (bool_decide (is_Some (files w !! "Resources/AppIcon.png"))
          || bool_decide ("Resources/AppIcon.png" ∈ dirs w) = true) as Hb.
  { destruct Hex; [rewrite bool_decide_eq_true_2 by done
                  |rewrite (bool_decide_eq_true_2 (_ ∈ _)) by done];
      [done | apply orb_true_r]. }
  unfold icns_files, icns_message, icns_result.
  destruct (sips w) as [|rc] eqn:Hsips; [|destruct (rc =? 0) eqn:Hrc].
  - erewrite def_val; cycle 1.
    { unfold bind at 1, os_path_exists. cbn [files dirs set_trace].
      rewrite Hb. cbn [negb].
      unfold try_except, bind, subprocess_run. cbn [sips set_invocations set_trace].
      rewrite Hsips. reflexivity. }
    rewrite <- Hsips. cbn. by rewrite <- app_assoc.
  - erewrite def_val; cycle 1.
    { unfold bind at 1, os_path_exists. cbn [files dirs set_trace].
      rewrite Hb. cbn [negb].
      unfold try_except, bind, subprocess_run. cbn [sips set_invocations set_trace].
      rewrite Hsips, Hrc. reflexivity. }
    rewrite <- Hsips. cbn. by rewrite <- app_assoc.
  - erewrite def_val; cycle 1.
    { unfold bind at 1, os_path_exists. cbn [files dirs set_trace].
      rewrite Hb. cbn [negb].
      unfold try_except, bind, subprocess_run. cbn [sips set_invocations set_trace].
      rewrite Hsips, Hrc. reflexivity. }
    rewrite <- Hsips. cbn. by rewrite <- app_assoc.
Qed.

Lemma icns_result_fails t : sips_fails t -> icns_result t = false.
Proof.
  intros [->|(rc & -> & Hrc)]; [done|]. cbn. by apply Z.eqb_neq.
Qed.

Lemma icns_files_fails t f : sips_fails t -> icns_files t f = f.
Proof. intros Ht. unfold icns_files. by rewrite icns_result_fails. Qed.

(** After the renderer's saves the conversion, where it succeeds, adds the
    bundle of the base picture and nothing else. *)
Lemma icns_files_saved t f :
  icns_files t (saved f) =
    if icns_result t
    then <["Resources/AppIcon.icns" := Icns (Png render)]> (saved f)
    else saved f.
Proof.
  unfold icns_files. destruct (icns_result t); [|done].
  cbn [tail icns_command sips_convert]. by rewrite saved_base.
Qed.

(** ** Whole runs *)

Lemma run_unavailable w :
  pillow w = false ->
  run w =
    (Exn (SystemExit 1),
     World (pillow w) (sips w) (argv w) (environ w)
           (made "Resources" (dirs w)) (files w)
           ["🎨 Creating PortList app icon...";
            "PIL (Pillow) not available. Install with: pip3 install Pillow";
            "❌ Icon creation failed"]
           []
           [Call "create_icon"; Return "create_icon" false]).
Proof.
  intros Hpil. unfold run, script.
  erewrite bind_val; [|apply module_init_eq].
  replace (pillow (start w)) with false by (by rewrite <- Hpil).
  unfold main.
  erewrite bind_val; [|reflexivity].
  erewrite bind_val; [|apply os_makedirs_exist_ok].
  erewrite bind_val; [|apply create_icon_unavailable].
  reflexivity.
Qed.

Lemma run_available w :
  pillow w = true ->
  run w =
    (Val tt,
     World (pillow w) (sips w) (argv w) (environ w)
           (made "Resources" (dirs w))
           (icns_files (sips w) (saved (files w)))
           ["🎨 Creating PortList app icon...";
            "✅ Created Resources/AppIcon.png";
            "✅ Created multiple icon sizes";
            icns_message (sips w);
            "🎉 Icon creation complete!"]
           [icns_command]
           [Call "create_icon"; Return "create_icon" true;
            Call "create_icns"; Return "create_icns" (icns_result (sips w))]).
Proof.
  intros Hpil. unfold run, script.
  erewrite bind_val; [|apply module_init_eq].
  replace (pillow (start w)) with true by (by rewrite <- Hpil).
  unfold main.
  erewrite bind_val; [|reflexivity].
  erewrite bind_val; [|apply os_makedirs_exist_ok].
  erewrite bind_val; [|apply create_icon_ok; [done|apply made_elem]].
  cbv beta iota.
  erewrite bind_val; cycle 1.
  { apply create_icns_found. left. cbn [files]. rewrite saved_base. by eexists. }
  reflexivity.
Qed.

Lemma final_unavailable w :
  pillow w = false ->
  final w =
    World (pillow w) (sips w) (argv w) (environ w)
          (made "Resources" (dirs w)) (files w)
          ["🎨 Creating PortList app icon...";
           "PIL (Pillow) not available. Install with: pip3 install Pillow";
           "❌ Icon creation failed"]
          []
          [Call "create_icon"; Return "create_icon" false].
Proof. intros Hpil. unfold final. by rewrite run_unavailable. Qed.

Lemma final_available w :
  pillow w = true ->
  final w =
    World (pillow w) (sips w) (argv w) (environ w)
          (made "Resources" (dirs w))
          (icns_files (sips w) (saved (files w)))
          ["🎨 Creating PortList app icon...";
           "✅ Created Resources/AppIcon.png";
           "✅ Created multiple icon sizes";
           icns_message (sips w);
           "🎉 Icon creation complete!"]
          [icns_command]
          [Call "create_icon"; Return "create_icon" true;
           Call "create_icns"; Return "create_icns" (icns_result (sips w))].
Proof. intros Hpil. unfold final. by rewrite run_available. Qed.

Lemma status_unavailable w : pillow w = false -> status w = 1.
Proof. intros Hpil. unfold status. by rewrite run_unavailable. Qed.

Lemma status_available w : pillow w = true -> status w = 0.
Proof. intros Hpil. unfold status. by rewrite run_available. Qed.

(** A literal string is not in a list of other literal strings. *)
Ltac not_among :=
  rewrite ?not_elem_of_cons; repeat split;
  first [discriminate | apply not_elem_of_nil].


Lemma icns_not_png : "Resources/AppIcon.icns" ∉ png_paths.
Proof. unfold png_paths. not_among. Qed.



(** A literal is in a list of literals. *)
Ltac among :=
  repeat first [apply list_elem_of_here | apply list_elem_of_further].



(** ** The claims about runs *)





(** C3. Without Pillow the guarded import leaves PIL_AVAILABLE False;
    create_icon then prints the install hint and returns False, raising
    nothing and touching neither files nor directories; the whole run
    prints the hint, creates no file and exits with status 1. (The
    [Resources] directory is still made by the entry point.) *)
Theorem missing_pillow_fails_cleanly (w : world) (Hpil : pillow w = false) :
  fst (module_init w) = Val false /\
  fst (create_icon false w) = Val false /\
  stdout (snd (create_icon false w)) =
    stdout w ++ ["PIL (Pillow) not available. Install with: pip3 install Pillow"] /\
  files (snd (create_icon false w)) = files w /\
  dirs (snd (create_icon false w)) = dirs w /\
  "PIL (Pillow) not available. Install with: pip3 install Pillow"
    ∈ stdout (final w) /\
  files (final w) = files w /\
  dirs (final w) = made "Resources" (dirs w) /\
  status w = 1.
Proof.
  rewrite module_init_eq, create_icon_unavailable, final_unavailable,
    status_unavailable by done.
  cbn [fst snd stdout files dirs]. rewrite Hpil.
  repeat split. among.
Qed.

Lemma missing_pillow_fails_cleanly_witness :
  pillow bare_host = false /\
  fst (module_init bare_host) = Val false /\
  fst (create_icon false bare_host) = Val false /\
  stdout (snd (create_icon false bare_host)) =
    stdout bare_host
    ++ ["PIL (Pillow) not available. Install with: pip3 install Pillow"] /\
  files (snd (create_icon false bare_host)) = files bare_host /\
  dirs (snd (create_icon false bare_host)) = dirs bare_host /\
  "PIL (Pillow) not available. Install with: pip3 install Pillow"
    ∈ stdout (final bare_host) /\
  files (final bare_host) = files bare_host /\
  dirs (final bare_host) = made "Resources" (dirs bare_host) /\
  status bare_host = 1.
Proof.
  split; [reflexivity | apply (missing_pillow_fails_cleanly bare_host); reflexivity].
Defined.

(** C6. The entry point calls the converter exactly when the renderer has
    returned True: a run's trace is either the renderer returning False and
    nothing more, or the renderer returning True followed by one call of
    the converter. *)
Theorem converter_runs_iff_renderer_succeeds (w : world) :
  (Call "create_icns" ∈ trace (final w)
   <-> Return "create_icon" true ∈ trace (final w)) /\
  (trace (final w) = [Call "create_icon"; Return "create_icon" false] \/
   exists v, trace (final w) =
               [Call "create_icon"; Return "create_icon" true;
                Call "create_icns"; Return "create_icns" v]).
Proof.
  destruct (pillow w) eqn:Hpil.
  - rewrite final_available by done. cbn [trace]. split.
    + split; intros _; among.
    + right. by eexists.
  - rewrite final_unavailable by done. cbn [trace]. split.
    + split; intros Hin; set_unfold; destruct Hin as [|[|]]; done.
    + by left.
Qed.

(** C7. When [sips] is missing or leaves with a non-zero code, create_icns
    (with the source PNG in place, so that the command is run) catches the
    error, prints one warning and returns False without raising, and no
    file is touched; a run on such a host with Pillow still ends with
    status 0, and its files are exactly the renderer's seven PNGs on top of
    what was there: no bundle has been made. *)
Theorem sips_failure_is_tolerated (w : world) (Hfail : sips_fails (sips w)) :
  (is_Some (files w !! "Resources/AppIcon.png") ->
   fst (create_icns w) = Val false /\
   stdout (snd (create_icns w)) = stdout w ++ [icns_message (sips w)] /\
   invocations (snd (create_icns w)) = invocations w ++ [icns_command] /\
   files (snd (create_icns w)) = files w) /\
  icns_message (sips w)
    ∈ ["⚠️  Could not create ICNS file (sips not available)";
       "⚠️  Could not create ICNS file (sips not found)"] /\
  (pillow w = true ->
   status w = 0 /\
   files (final w) = saved (files w) /\
   files (final w) !! "Resources/AppIcon.icns"
     = files w !! "Resources/AppIcon.icns" /\
   Forall (fun p => exists im, files (final w) !! p = Some (Png im)) png_paths).
Proof.
  split; [|split].
  - intros Hsrc. rewrite create_icns_found by (by left).
    cbn [fst snd stdout invocations files].
    by rewrite icns_result_fails, icns_files_fails.
  - destruct Hfail as [->|(rc & -> & Hrc)]; cbn [icns_message].
    + among.
    + apply Z.eqb_neq in Hrc. rewrite Hrc. among.
  - intros Hpil. rewrite status_available, final_available by done.
    cbn [files]. rewrite icns_files_fails by done.
    repeat split.
    + by apply saved_other, icns_not_png.
    + change png_paths with ("Resources/AppIcon.png" :: map resized_path sizes).
      constructor.
      * rewrite saved_base. by eexists.
      * apply Forall_fmap, Forall_forall. intros s Hs.
        exists (Image_resize render (s, s) LANCZOS). by apply saved_resized.
Qed.

Lemma sips_failure_is_tolerated_witness :
  sips_fails (sips stale_host) /\
  is_Some (files stale_host !! "Resources/AppIcon.png") /\
  pillow stale_host = true /\
  fst (create_icns stale_host) = Val false /\
  stdout (snd (create_icns stale_host))
    = ["⚠️  Could not create ICNS file (sips not available)"] /\
  files (snd (create_icns stale_host)) = files stale_host /\
  status stale_host = 0 /\
  files (final stale_host) = saved (files stale_host).
Proof.
  assert (sips_fails (sips stale_host)) as Hfail.
  { right. exists 1. split; [reflexivity | lia]. }
  assert (is_Some (files stale_host !! "Resources/AppIcon.png")) as Hsrc.
  { exists (Blob "old icon"). apply lookup_insert_eq. }
  destruct (sips_failure_is_tolerated stale_host Hfail) as (Hicns & _ & Hrun).
  destruct (Hicns Hsrc) as (Hret & Hout & _ & Hfiles).
  destruct (Hrun eq_refl) as (Hstatus & Hsaved & _).
  repeat split; assumption.
Defined.




(** C9. When nothing exists at Resources/AppIcon.png, create_icns prints
    the not-found line and returns False; the conversion command is never
    handed to [subprocess.run], and no file is touched. *)
Theorem missing_source_skips_conversion (w : world)
    (Hfile : files w !! "Resources/AppIcon.png" = None)
    (Hdir : "Resources/AppIcon.png" ∉ dirs w) :
  fst (create_icns w) = Val false /\
  stdout (snd (create_icns w)) = stdout w ++ ["❌ AppIcon.png not found"] /\
  invocations (snd (create_icns w)) = invocations w /\
  files (snd (create_icns w)) = files w.
Proof. by rewrite create_icns_not_found. Qed.

Lemma missing_source_skips_conversion_witness :
  files empty_host !! "Resources/AppIcon.png" = None /\
  ("Resources/AppIcon.png" ∉ dirs empty_host) /\
  fst (create_icns empty_host) = Val false /\
  stdout (snd (create_icns empty_host))
    = stdout empty_host ++ ["❌ AppIcon.png not found"] /\
  invocations (snd (create_icns empty_host)) = invocations empty_host /\
  files (snd (create_icns empty_host)) = files empty_host.
Proof.
  assert (files empty_host !! "Resources/AppIcon.png" = None) as Hfile
    by apply lookup_empty.
  assert ("Resources/AppIcon.png" ∉ dirs empty_host) as Hdir.
  { cbn [dirs empty_host]. rewrite elem_of_singleton. discriminate. }
  split; [exact Hfile|]. split; [exact Hdir|].
  exact (missing_source_skips_conversion empty_host Hfile Hdir).
Defined.



(** * Further properties *)

(** ** The renderer, in every case *)


(** ** The converter, in every case *)






(** ** Whole runs, in every case *)






Lemma saved_png f g p : p ∈ png_paths -> saved f !! p = saved g !! p.
Proof.
  intros Hp. rewrite !saved_unfold. unfold png_paths in Hp.
  repeat (apply elem_of_cons in Hp as [->|Hp]; [by simplify_map_eq|]).
  by apply elem_of_nil in Hp.
Qed.



Lemma saved_idempotent f : saved (saved f) = saved f.
Proof.
  apply map_eq. intros p.
  destruct (decide (p ∈ png_paths)) as [Hp|Hp].
  - by apply saved_png.
  - by rewrite !saved_other.
Qed.

Lemma saved_insert_icns f c :
  saved (<["Resources/AppIcon.icns" := c]> f)
  = <["Resources/AppIcon.icns" := c]> (saved f).
Proof.
  apply map_eq. intros p.
  destruct (decide (p ∈ png_paths)) as [Hp|Hp].
  - rewrite lookup_insert_ne by (intros <-; by apply icns_not_png).
    by apply saved_png.
  - rewrite saved_other by done.
    destruct (decide (p = "Resources/AppIcon.icns")) as [->|Hne].
    + by rewrite !lookup_insert_eq.
    + by rewrite !lookup_insert_ne, saved_other.
Qed.

Lemma made_idempotent path d : made path (made path d) = made path d.
Proof.
  unfold made at 1. by rewrite bool_decide_eq_true_2 by apply made_elem.
Qed.

(** Running the script again on what a run has left changes nothing: the
    same files, the same directories, the same lines printed and the same
    status. *)
Theorem rerun_changes_nothing (w : world) :
  files (final (final w)) = files (final w) /\
  dirs (final (final w)) = dirs (final w) /\
  stdout (final (final w)) = stdout (final w) /\
  status (final w) = status w.
Proof.
  destruct (pillow w) eqn:Hpil.
  - assert (pillow (final w) = true) as Hpil'
      by (by rewrite final_available).
    rewrite (final_available (final w)), (status_available (final w)) by done.
    rewrite status_available by done.
    rewrite final_available by done.
    cbn [files dirs stdout sips pillow].
    split; [|split; [|done]].
    + rewrite !icns_files_saved.
      destruct (icns_result (sips w)).
      * by rewrite saved_insert_icns, saved_idempotent, insert_insert_eq.
      * by rewrite saved_idempotent.
    + apply made_idempotent.
  - assert (pillow (final w) = false) as Hpil'
      by (by rewrite final_unavailable).
    rewrite (final_unavailable (final w)), (status_unavailable (final w)) by done.
    rewrite status_unavailable by done.
    rewrite final_unavailable by done.
    cbn [files dirs stdout sips pillow].
    split; [done|]. split; [|done].
    apply made_idempotent.
Qed.

(** ** The names of the copies *)

Lemma lacks_app c a b : lacks c (a +:+ b) = lacks c a && lacks c b.
Proof.
  induction a as [|d a IH]; [done|].
  change (String d a +:+ b) with (String d (a +:+ b)).
  cbn [lacks]. by rewrite IH, andb_assoc.
Qed.

Lemma pretty_N_go_lacks c x s :
  (forall d : N, pretty_N_char d <> c) ->
  lacks c s = true -> lacks c (pretty_N_go x s) = true.
Proof.
  intros Hc. revert s. induction (N.lt_wf_0 x) as [x _ IH]; intros s Hs.
  assert (x = 0 \/ 0 < x)%N as [->|Hx] by lia.
  - by rewrite pretty_N_go_0.
  - rewrite pretty_N_go_step by done. apply IH.
    { by apply N.div_lt. }
    cbn [lacks]. rewrite Hs, andb_true_r.
    apply negb_true_iff, Ascii.eqb_neq. intros ->. by eapply Hc.
Qed.

Lemma pretty_N_lacks c (x : N) :
  (forall d : N, pretty_N_char d <> c) -> lacks c (pretty x) = true.
Proof.
  intros Hc. unfold pretty, pretty_N. case_decide.
  - cbn. rewrite andb_true_r. apply negb_true_iff, Ascii.eqb_neq.
    intros ->. by apply (Hc 0%N).
  - by apply pretty_N_go_lacks.
Qed.

Lemma pretty_Z_lacks c (z : Z) : not_numeric c -> lacks c (pretty z) = true.
Proof.
  intros [Hdash Hc]. destruct z as [|p|p]; unfold pretty, pretty_Z.
  - cbn. rewrite andb_true_r. apply negb_true_iff, Ascii.eqb_neq.
    intros ->. by apply (Hc 0%N).
  - by apply pretty_N_lacks.
  - change (lacks c (String "-" (pretty (Npos p))) = true).
    cbn [lacks]. rewrite (pretty_N_lacks c (Npos p)) by done.
    rewrite andb_true_r. by apply negb_true_iff, Ascii.eqb_neq.
Qed.

Lemma not_numeric_x : not_numeric "x".
Proof. split; [done|]. intros d. unfold pretty_N_char. by repeat case_match. Qed.
Lemma not_numeric_slash : not_numeric "/".
Proof. split; [done|]. intros d. unfold pretty_N_char. by repeat case_match. Qed.

Lemma split_at_first c a b r r' :
  lacks c a = true -> lacks c b = true ->
  a +:+ String c r = b +:+ String c r' -> a = b.
Proof.
  revert b. induction a as [|d a IH]; intros [|e b]; cbn; intros Ha Hb Heq.
  - done.
  - injection Heq as -> _. by rewrite Ascii.eqb_refl in Hb.
  - injection Heq as -> _. by rewrite Ascii.eqb_refl in Ha.
  - injection Heq as -> Heq.
    apply andb_true_iff in Ha as [_ Ha], Hb as [_ Hb].
    f_equal. by eapply IH.
Qed.

Lemma resized_path_inj s t : resized_path s = resized_path t -> s = t.
Proof.
  unfold resized_path. intros Heq.
  apply (inj (String.append "Resources/AppIcon_")) in Heq.
  apply split_at_first in Heq; [by apply (inj pretty)|by apply pretty_Z_lacks, not_numeric_x..].
Qed.

Lemma parents_from_lacks acc rest :
  lacks "/" rest = true -> parents_from acc rest = [].
Proof.
  revert acc. induction rest as [|c rest IH]; intros acc; cbn [parents_from lacks]; [done|].
  intros [Hc Hrest]%andb_true_iff.
  apply negb_true_iff in Hc. rewrite Ascii.eqb_sym, Hc. by apply IH.
Qed.

Lemma append_empty_r (s : string) : s +:+ "" = s.
Proof.
  induction s as [|c s IH]; [done|].
  change (String c s +:+ "") with (String c (s +:+ "")). by rewrite IH.
Qed.

Lemma append_cons_r (a b : string) c :
  (a +:+ String c "") +:+ b = a +:+ String c b.
Proof.
  induction a as [|d a IH]; [done|].
  change (String d ((a +:+ String c "") +:+ b) = String d (a +:+ String c b)).
  by rewrite IH.
Qed.

Lemma parents_from_app acc a b :
  parents_from acc (a +:+ b) = parents_from acc a ++ parents_from (acc +:+ a) b.
Proof.
  revert acc. induction a as [|c a IH]; intros acc.
  - by rewrite append_empty_r.
  - change (String c a +:+ b) with (String c (a +:+ b)).
    cbn [parents_from].
    destruct (Ascii.eqb c "/") eqn:Hc.
    + apply Ascii.eqb_eq in Hc as ->.
      by rewrite IH, append_cons_r.
    + by rewrite IH, append_cons_r.
Qed.

Lemma dirname_resized_path s : dirname (resized_path s) = Some "Resources".
Proof.
  unfold dirname, parents, resized_path.
  rewrite parents_from_app.
  rewrite (parents_from_lacks _ (pretty s +:+ _)); [done|].
  rewrite !lacks_app, !pretty_Z_lacks by apply not_numeric_slash. done.
Qed.

(** Line 90 gives every size a file of its own: two different sizes never
    share a path, no size takes the path of the base picture, and every
    path lies directly in Resources/. This holds for all integers, not only
    the six of the script. *)
Theorem resized_paths_never_clash (s t : Z) (Hne : s <> t) :
  resized_path s <> resized_path t /\
  resized_path s <> "Resources/AppIcon.png" /\
  dirname (resized_path s) = Some "Resources".
Proof.
  split; [|split].
  - intros Heq. by apply Hne, resized_path_inj.
  - unfold resized_path. intros Heq.
    apply (inj (String.append "Resources/AppIcon")) in Heq. discriminate.
  - apply dirname_resized_path.
Qed.

Lemma resized_paths_never_clash_witness :
  16 <> 32 /\
  resized_path 16 <> resized_path 32 /\
  resized_path 16 <> "Resources/AppIcon.png" /\
  dirname (resized_path 16) = Some "Resources".
Proof.
  split; [lia | apply (resized_paths_never_clash 16 32); lia].
Defined.

(** ** The rest of the picture *)

Lemma lines_render :
  lines render =
    map (fun i => Line (IZR center, IZR center) (node_x (i * 60), node_y (i * 60))
                       secondary_color 6) (range 6)
    ++ map (fun i => Line (node_x (i * 60), node_y (i * 60))
                          (node_x (((i + 1) mod 6) * 60), node_y (((i + 1) mod 6) * 60))
                          (255, 255, 255, 128) 2) (range 6).
Proof. reflexivity. Qed.

Lemma node_center_eq i :
  0 <= i < 6 -> node_center i = Some (node_x (i * 60), node_y (i * 60)).
Proof.
  intros Hi. unfold node_center, node_box. rewrite (node_shape_eq i Hi).
  cbn [fmap option_fmap option_map]. by rewrite box_center_square.
Qed.

Lemma dist_sym p q : dist p q = dist q p.
Proof. unfold dist. f_equal. ring. Qed.

(** Points a sixth of a turn apart on the circle are a radius apart. *)
Lemma chord_60 (a : R) (r : R) (c : R) :
  (0 <= r)%R ->
  dist ((c + r * cos a)%R, (c + r * sin a)%R)
       ((c + r * cos (a + PI / 3))%R, (c + r * sin (a + PI / 3))%R) = r.
Proof.
  intros Hr. unfold dist. cbn [fst snd].
  rewrite cos_plus, sin_plus, cos_PI3, sin_PI3.
  set (x := cos a). set (y := sin a).
  assert (x * x + y * y = 1)%R as H1.
  { pose proof (sin2_cos2 a) as H. unfold Rsqr in H. unfold x, y. lra. }
  assert (sqrt 3 * sqrt 3 = 3)%R as H3 by (apply sqrt_sqrt; lra).
  replace ((c + r * x - (c + r * (x * (1 / 2) - y * (sqrt 3 / 2)))) *
           (c + r * x - (c + r * (x * (1 / 2) - y * (sqrt 3 / 2)))) +
           (c + r * y - (c + r * (y * (1 / 2) + x * (sqrt 3 / 2)))) *
           (c + r * y - (c + r * (y * (1 / 2) + x * (sqrt 3 / 2)))))%R
    with (r * r * ((x * x + y * y) * (1 / 4 + (sqrt 3 * sqrt 3) / 4)))%R by field.
  rewrite H1, H3.
  replace (r * r * (1 * (1 / 4 + 3 / 4)))%R with (r * r)%R by field.
  by apply sqrt_square.
Qed.

Lemma node_next i :
  node_x ((i + 1) * 60) = (IZR center + IZR connection_radius * cos (radians (IZR (i * 60)) + PI / 3))%R /\
  node_y ((i + 1) * 60) = (IZR center + IZR connection_radius * sin (radians (IZR (i * 60)) + PI / 3))%R.
Proof.
  unfold node_x, node_y.
  replace (radians (IZR ((i + 1) * 60))) with (radians (IZR (i * 60)) + PI / 3)%R; [done|].
  unfold radians. rewrite !mult_IZR, plus_IZR. field.
Qed.

(** Angles are taken modulo a full turn. *)
Lemma node_turn i :
  node_x ((i + 6) * 60) = node_x (i * 60) /\ node_y ((i + 6) * 60) = node_y (i * 60).
Proof.
  unfold node_x, node_y.
  replace (radians (IZR ((i + 6) * 60))) with (radians (IZR (i * 60)) + 2 * PI)%R.
  - by rewrite cos_plus, sin_plus, cos_2PI, sin_2PI, !Rmult_1_r, !Rmult_0_r, Rminus_0_r, Rplus_0_r.
  - unfold radians. rewrite !mult_IZR, plus_IZR. field.
Qed.

Lemma inside_disc (x y r : R) (p : R * R) :
  (0 < r)%R ->
  inside ((x - r)%R, (y - r)%R, (x + r)%R, (y + r)%R) p <->
  ((fst p - x) * (fst p - x) + (snd p - y) * (snd p - y) <= r * r)%R.
Proof.
  intros Hr. unfold inside.
  replace ((x - r + (x + r)) / 2)%R with x by field.
  replace ((y - r + (y + r)) / 2)%R with y by field.
  replace ((x + r - (x - r)) / 2)%R with r by field.
  replace ((y + r - (y - r)) / 2)%R with r by field.
  assert (0 < r * r)%R by nra.
  split; intros H'; nra.
Qed.

Lemma background_box_eq :
  ellipse_box 0 = Some ((256 - 206)%R, (256 - 206)%R, (256 + 206)%R, (256 + 206)%R).
Proof.
  unfold ellipse_box. rewrite ellipses_render. cbn [lookup list_lookup].
  change (IZR margin) with 50%R. change (IZR (size - margin)) with 462%R.
  do 2 f_equal; repeat f_equal; lra.
Qed.

Lemma hub_box_eq :
  ellipse_box 1 = Some ((256 - 30)%R, (256 - 30)%R, (256 + 30)%R, (256 + 30)%R).
Proof.
  unfold ellipse_box. rewrite ellipses_render. cbn [lookup list_lookup].
  change (IZR (center - hub_radius)) with 226%R.
  change (IZR (center + hub_radius)) with 286%R.
  do 2 f_equal; repeat f_equal; lra.
Qed.

Lemma node_box_eq i :
  0 <= i < 6 ->
  node_box i = Some ((node_x (i * 60) - 20)%R, (node_y (i * 60) - 20)%R,
                     (node_x (i * 60) + 20)%R, (node_y (i * 60) + 20)%R).
Proof. intros Hi. unfold node_box. by rewrite (node_shape_eq i Hi). Qed.

Lemma node_offset (angle : Z) :
  ((node_x angle - 256) * (node_x angle - 256)
   + (node_y angle - 256) * (node_y angle - 256) = 150 * 150)%R.
Proof.
  unfold node_x, node_y.
  change (IZR center) with 256%R. change (IZR connection_radius) with 150%R.
  pose proof (sin2_cos2 (radians (IZR angle))) as H. unfold Rsqr in H. nra.
Qed.

(** A point within 20 of a point at 150 from the centre is more than 30
    and at most 170 from the centre (Cauchy-Schwarz). *)
Lemma near_node_bounds (nx ny px py : R) :
  ((nx - 256) * (nx - 256) + (ny - 256) * (ny - 256) = 150 * 150)%R ->
  ((px - nx) * (px - nx) + (py - ny) * (py - ny) <= 20 * 20)%R ->
  (30 * 30 < (px - 256) * (px - 256) + (py - 256) * (py - 256) <= 170 * 170)%R.
Proof.
  intros Hn Hp.
  set (u1 := (px - nx)%R) in *. set (u2 := (py - ny)%R) in *.
  set (v1 := (nx - 256)%R) in *. set (v2 := (ny - 256)%R) in *.
  replace ((px - 256) * (px - 256) + (py - 256) * (py - 256))%R
    with ((u1 * u1 + u2 * u2) + 2 * (u1 * v1 + u2 * v2)
          + (v1 * v1 + v2 * v2))%R by (unfold u1, u2, v1, v2; ring).
  clearbody u1 u2 v1 v2.
  pose proof (Rle_0_sqr (u1 * v2 - u2 * v1)) as Hsq.
  pose proof (Rle_0_sqr u1) as Hu1. pose proof (Rle_0_sqr u2) as Hu2.
  unfold Rsqr in Hsq, Hu1, Hu2.
  assert ((u1 * v1 + u2 * v2) * (u1 * v1 + u2 * v2)
          <= (u1 * u1 + u2 * u2) * (v1 * v1 + v2 * v2))%R as Hcs.
  { replace ((u1 * u1 + u2 * u2) * (v1 * v1 + v2 * v2))%R
      with ((u1 * v1 + u2 * v2) * (u1 * v1 + u2 * v2)
            + (u1 * v2 - u2 * v1) * (u1 * v2 - u2 * v1))%R by ring.
    lra. }
  rewrite Hn in *.
  set (d := (u1 * v1 + u2 * v2)%R) in *.
  set (A := (u1 * u1 + u2 * u2)%R) in *.
  assert (0 <= A)%R as HA by (unfold A; lra).
  clearbody A d.
  assert (d * d <= 3000 * 3000)%R as Hdd by nra.
  assert (-3000 <= d <= 3000)%R as Hd.
  { split.
    - destruct (Rle_or_lt (-3000) d); [done|]. nra.
    - destruct (Rle_or_lt d 3000); [done|]. nra. }
  lra.
Qed.

(** Every node disc lies within the background disc, clear of the hub
    disc, and within the canvas: a point of node i is more than 30 and at
    most 170 from the centre, the background reaching to 206. *)
Theorem nodes_within_badge (i : Z) (Hi : 0 <= i < 6) :
  exists bg hub nd,
    ellipse_box 0 = Some bg /\ ellipse_box 1 = Some hub /\
    node_box i = Some nd /\
    forall p, inside nd p ->
              inside bg p /\ ~ inside hub p /\
              (0 <= fst p <= IZR size)%R /\ (0 <= snd p <= IZR size)%R.
Proof.
  eexists _, _, _.
  split; [apply background_box_eq|]. split; [apply hub_box_eq|].
  split; [by apply node_box_eq|].
  intros [px py]. rewrite !inside_disc by lra. cbn [fst snd]. intros Hp.
  destruct (near_node_bounds _ _ px py (node_offset (i * 60)) Hp) as [Hlo Hhi].
  split; [lra|]. split; [lra|].
  change (IZR size) with 512%R.
  pose proof (Rle_0_sqr (px - 256)) as Hx. pose proof (Rle_0_sqr (py - 256)) as Hy.
  unfold Rsqr in Hx, Hy.
  split; split; nra.
Qed.

Lemma nodes_within_badge_witness :
  0 <= 2 < 6 /\
  exists bg hub nd,
    ellipse_box 0 = Some bg /\ ellipse_box 1 = Some hub /\
    node_box 2 = Some nd /\
    forall p, inside nd p ->
              inside bg p /\ ~ inside hub p /\
              (0 <= fst p <= IZR size)%R /\ (0 <= snd p <= IZR size)%R.
Proof. split; [lia | apply (nodes_within_badge 2); lia]. Defined.

(** Two discs of radius 20 whose centres are more than 40 apart share no
    point. *)
Lemma too_far_to_share (ax ay bx b_y px py : R) :
  (40 * 40 < (ax - bx) * (ax - bx) + (ay - b_y) * (ay - b_y))%R ->
  ((px - ax) * (px - ax) + (py - ay) * (py - ay) <= 20 * 20)%R ->
  ~ ((px - bx) * (px - bx) + (py - b_y) * (py - b_y) <= 20 * 20)%R.
Proof.
  intros Hab Ha Hb.
  pose proof (Rle_0_sqr ((px - ax) + (px - bx))) as Hx.
  pose proof (Rle_0_sqr ((py - ay) + (py - b_y))) as Hy.
  unfold Rsqr in Hx, Hy. nra.
Qed.

Lemma node_values :
  (node_x (0 * 60) = 406 /\ node_y (0 * 60) = 256 /\
   node_x (1 * 60) = 331 /\ node_y (1 * 60) = 256 + 75 * sqrt 3 /\
   node_x (2 * 60) = 181 /\ node_y (2 * 60) = 256 + 75 * sqrt 3 /\
   node_x (3 * 60) = 106 /\ node_y (3 * 60) = 256 /\
   node_x (4 * 60) = 181 /\ node_y (4 * 60) = 256 - 75 * sqrt 3 /\
   node_x (5 * 60) = 331 /\ node_y (5 * 60) = 256 - 75 * sqrt 3)%R.
Proof.
  pose proof node_coordinates as H. change (range 6) with [0; 1; 2; 3; 4; 5] in H.
  cbn [map] in H. injection H as -> -> -> -> -> -> -> -> -> -> -> ->.
  repeat split.
Qed.

(** No two of the six node discs share a point. *)
Theorem nodes_do_not_overlap (i j : Z)
    (Hi : 0 <= i < 6) (Hj : 0 <= j < 6) (Hne : i <> j) :
  exists bi bj,
    node_box i = Some bi /\ node_box j = Some bj /\
    forall p, inside bi p -> ~ inside bj p.
Proof.
  eexists _, _. split; [by apply node_box_eq|]. split; [by apply node_box_eq|].
  intros [px py]. rewrite !inside_disc by lra. cbn [fst snd].
  apply too_far_to_share.
  destruct node_values as (X0 & Y0 & X1 & Y1 & X2 & Y2 & X3 & Y3 & X4 & Y4 & X5 & Y5).
  assert (sqrt 3 * sqrt 3 = 3)%R as H3 by (apply sqrt_sqrt; lra).
  each_node Hi; each_node Hj; try done;
    rewrite ?X0, ?Y0, ?X1, ?Y1, ?X2, ?Y2, ?X3, ?Y3, ?X4, ?Y4, ?X5, ?Y5; nra.
Qed.

Lemma nodes_do_not_overlap_witness :
  0 <= 0 < 6 /\ 0 <= 3 < 6 /\ 0 <> 3 /\
  exists bi bj,
    node_box 0 = Some bi /\ node_box 3 = Some bj /\
    forall p, inside bi p -> ~ inside bj p.
Proof.
  split; [lia|]. split; [lia|]. split; [lia|].
  apply (nodes_do_not_overlap 0 3); lia.
Defined.

Lemma node_offset_dist (angle : Z) :
  dist canvas_center (node_x angle, node_y angle) = 150%R.
Proof. rewrite dist_sym. apply node_on_circle. Qed.

(** Spoke i runs from the canvas centre to the centre of node i, in the
    secondary colour, 6 wide and 150 long, and is painted just before its
    node, which so covers its outer end. *)
Theorem spokes_reach_nodes (i : Z) (Hi : 0 <= i < 6) :
  exists q,
    spoke i = Some (Line canvas_center q secondary_color 6) /\
    node_center i = Some q /\
    dist canvas_center q = 150%R /\
    shapes render !! (2 + 2 * Z.to_nat i)%nat = spoke i /\
    shapes render !! (3 + 2 * Z.to_nat i)%nat = node_shape i.
Proof.
  exists (node_x (i * 60), node_y (i * 60)).
  split; [|split; [by apply node_center_eq|split; [apply node_offset_dist|]]].
  - unfold spoke. rewrite lines_render. each_node Hi; reflexivity.
  - unfold spoke, node_shape. each_node Hi; split; reflexivity.
Qed.

Lemma spokes_reach_nodes_witness :
  0 <= 1 < 6 /\
  exists q,
    spoke 1 = Some (Line canvas_center q secondary_color 6) /\
    node_center 1 = Some q /\
    dist canvas_center q = 150%R /\
    shapes render !! (2 + 2 * Z.to_nat 1)%nat = spoke 1 /\
    shapes render !! (3 + 2 * Z.to_nat 1)%nat = node_shape 1.
Proof. split; [lia | apply (spokes_reach_nodes 1); lia]. Defined.

Lemma link_length (i : Z) :
  dist (node_x (i * 60), node_y (i * 60))
       (node_x ((i + 1) * 60), node_y ((i + 1) * 60)) = 150%R.
Proof.
  destruct (node_next i) as [-> ->]. unfold node_x, node_y.
  rewrite chord_60; [done|]. apply IZR_le. unfold connection_radius. lia.
Qed.

(** Link i runs from the centre of node i to the centre of node
    (i + 1) mod 6, the last one back to node 0, so the six links close a
    ring; each is half-transparent white, 2 wide and 150 long (the ring is
    a regular hexagon), and all are painted after the nodes. *)
Theorem links_close_the_ring (i : Z) (Hi : 0 <= i < 6) :
  exists p q,
    link i = Some (Line p q (255, 255, 255, 128) 2) /\
    node_center i = Some p /\
    node_center ((i + 1) mod 6) = Some q /\
    dist p q = 150%R /\
    shapes render !! (14 + Z.to_nat i)%nat = link i.
Proof.
  exists (node_x (i * 60), node_y (i * 60)),
         (node_x (((i + 1) mod 6) * 60), node_y (((i + 1) mod 6) * 60)).
  split; [|split; [by apply node_center_eq|split; [|split]]].
  - unfold link. rewrite lines_render. each_node Hi; reflexivity.
  - apply node_center_eq. by apply Z.mod_pos_bound.
  - assert (i = 5 \/ (i + 1) mod 6 = i + 1) as [-> | ->].
    { each_node Hi; auto. }
    + change ((5 + 1) mod 6) with 0.
      destruct (node_turn 0) as [<- <-]. apply (link_length 5).
    + apply link_length.
  - unfold link. each_node Hi; reflexivity.
Qed.

Lemma links_close_the_ring_witness :
  0 <= 5 < 6 /\
  exists p q,
    link 5 = Some (Line p q (255, 255, 255, 128) 2) /\
    node_center 5 = Some p /\
    node_center ((5 + 1) mod 6) = Some q /\
    dist p q = 150%R /\
    shapes render !! (14 + Z.to_nat 5)%nat = link 5.
Proof. split; [lia | apply (links_close_the_ring 5); lia]. Defined.
